(** * Source-estimate similarity metrics: [mne/simulation/metrics.py]

    A shallow embedding of [_check_stc] and [source_estimate_quantification]
    together with the part of Python, numpy and scipy they rely on, followed
    by the properties of the metric evaluator.

    The two functions are embedded over two number systems.

    - In [Numpy] and [Metrics] a finite float64 is an exact real number and
      the results of a zero divisor are kept ([NaN], infinities).  This
      embedding carries the statements that no rounding can touch: which
      test fires, which error is raised, where a score is exactly zero or
      not a number.

    - In [Numpy64] and [Metrics.F64] a float64 is an IEEE 754 binary64 value
      and every operation rounds to nearest, ties to even, overflows to an
      infinity and underflows as the format says.  This embedding carries
      the statements on the value of a score. *)

From Stdlib Require Import Reals Lra Lia List String Ascii Bool Arith ZArith.
From Stdlib Require Import SpecFloat.
Import ListNotations.

Local Open Scope R_scope.

(** ** Python: exceptions and results *)

Module Py.

(** The built-in exception classes that matter here, with their message. *)
Inductive exn : Type :=
| ValueError (msg : string)
| NotImplementedError (msg : string).

(** A call either returns a value or raises. *)
Inductive result (A : Type) : Type :=
| Return (a : A)
| Raise (e : exn).

Arguments Return {A} a.
Arguments Raise {A} e.

Definition bind {A B : Type} (m : result A) (k : A -> result B) : result B :=
  match m with
  | Return a => k a
  | Raise e => Raise e
  end.

Definition raises_NotImplemented {A : Type} (m : result A) : Prop :=
  exists msg, m = Raise (NotImplementedError msg).

(** The double-quote character (code 34) and a string put between two
    of them. *)
Definition dq : string :=
  String (Ascii false true false false false true false false) EmptyString.

Definition quoted (s : string) : string := (dq ++ s ++ dq)%string.

(** [needle in haystack] on strings. *)
Definition contains (needle haystack : string) : bool :=
  match index 0 needle haystack with
  | Some _ => true
  | None => false
  end.

End Py.

Notation "x <- m ;; k" := (Py.bind m (fun x => k))
  (at level 61, m at next level, right associativity).

(** ** numpy and scipy.linalg *)

Module Numpy.
Import Py.

(** A float64 value: finite, an infinity, or not-a-number. *)
Inductive float64 : Type :=
| Fin (x : R)
| Inf (negative : bool)
| NaN.

(** [x / y] on finite operands; a zero divisor raises nothing. *)
Definition true_divide (x y : R) : float64 :=
  if Req_dec_T y 0 then
    if Req_dec_T x 0 then NaN
    else Inf (if Rlt_dec x 0 then true else false)
  else Fin (x / y).

(** [np.sqrt] on a scalar. *)
Definition np_sqrt (v : float64) : float64 :=
  match v with
  | Fin x => if Rlt_dec x 0 then NaN else Fin (sqrt x)
  | Inf false => Inf false
  | Inf true => NaN
  | NaN => NaN
  end.

(** [1 - v]. *)
Definition one_minus (v : float64) : float64 :=
  match v with
  | Fin x => Fin (1 - x)
  | Inf s => Inf (negb s)
  | NaN => NaN
  end.

(** A two-dimensional array: its shape and its elements in row-major
    order, which is the order [flatten] gives. *)
Record ndarray : Type := mk_ndarray {
  shape : nat * nat;
  flat : list R
}.

Definition size (a : ndarray) : nat := (fst (shape a) * snd (shape a))%nat.

Definition wf (a : ndarray) : Prop := List.length (flat a) = size a.

Definition shape_eqb (s1 s2 : nat * nat) : bool :=
  Nat.eqb (fst s1) (fst s2) && Nat.eqb (snd s1) (snd s2).

Definition flatten (a : ndarray) : list R := flat a.

Fixpoint zip_with (f : R -> R -> R) (xs ys : list R) : list R :=
  match xs, ys with
  | x :: xs', y :: ys' => f x y :: zip_with f xs' ys'
  | _, _ => []
  end.

(** [a - b], called on arrays of one shape only. *)
Definition nd_sub (a b : ndarray) : ndarray :=
  {| shape := shape a; flat := zip_with Rminus (flat a) (flat b) |}.

(** [a ** 2]. *)
Definition nd_square (a : ndarray) : ndarray :=
  {| shape := shape a; flat := map (fun x => x ^ 2) (flat a) |}.

Fixpoint sum (xs : list R) : R :=
  match xs with
  | [] => 0
  | x :: xs' => x + sum xs'
  end.

(** [np.mean(a)]: the sum of all elements over their number; the mean of an
    empty array is [0 / 0]. *)
Definition np_mean (a : ndarray) : float64 :=
  true_divide (sum (flat a)) (INR (size a)).

Fixpoint dot (xs ys : list R) : R :=
  match xs, ys with
  | x :: xs', y :: ys' => x * y + dot xs' ys'
  | _, _ => 0
  end.

(** [np.correlate(a, v)] in its default mode ['valid']:
    [c_k = sum_n a[n + k] * v[n]] for every shift [k] at which the shorter
    argument lies inside the longer one.  Two arguments of one length [n >= 1]
    give the single value [dot a v].  An argument of length zero is
    refused with a [ValueError]. *)
Definition correlate_valid (a v : list R) : list R :=
  map (fun k => dot (skipn k a) v) (seq 0 (List.length a - List.length v + 1)).

Definition correlate_empty_first : exn :=
  ValueError "first array argument cannot be empty".

Definition correlate_empty_second : exn :=
  ValueError "second array argument cannot be empty".

Definition np_correlate (a v : list R) : result (list R) :=
  match a, v with
  | [], _ => Raise correlate_empty_first
  | _, [] => Raise correlate_empty_second
  | _, _ =>
      Return (if (List.length a <? List.length v)%nat
              then rev (correlate_valid v a)
              else correlate_valid a v)
  end.

(** [scipy.linalg.norm(a)]: the Frobenius norm. *)
Definition norm (a : ndarray) : R := sqrt (sum (map (fun x => x ^ 2) (flat a))).

(** [x != y] on two finite values. *)
Definition ne (x y : R) : bool := if Req_dec_T x y then false else true.

Fixpoint ne_elementwise (t1 t2 : list R) : list bool :=
  match t1, t2 with
  | x :: t1', y :: t2' => ne x y :: ne_elementwise t1' t2'
  | _, _ => []
  end.

(** [t1 != t2] on one-dimensional arrays, with broadcasting of an array of
    length one.  [None] stands for two lengths that cannot be broadcast:
    the comparison is then not element-wise and its value is the plain
    [True]. *)
Definition not_equal (t1 t2 : list R) : option (list bool) :=
  if Nat.eqb (List.length t1) (List.length t2) then Some (ne_elementwise t1 t2)
  else match t1, t2 with
       | [x], _ => Some (map (ne x) t2)
       | _, [y] => Some (map (fun x => ne x y) t1)
       | _, _ => None
       end.

(** [np.all]: true on the empty array. *)
Definition np_all (m : option (list bool)) : bool :=
  match m with
  | Some bs => forallb (fun b => b) bs
  | None => true
  end.

End Numpy.

(** ** numpy and scipy.linalg on binary64 *)

Module Numpy64.
Import Py.

(** The format: 53 bits of precision, exponents below 1024. *)
Definition prec : Z := 53%Z.

Definition emax : Z := 1024%Z.

Definition float64 : Type := spec_float.

(** The five operations, each rounded to nearest, ties to even. *)
Definition add : float64 -> float64 -> float64 := SFadd prec emax.

Definition sub : float64 -> float64 -> float64 := SFsub prec emax.

Definition mul : float64 -> float64 -> float64 := SFmul prec emax.

Definition div : float64 -> float64 -> float64 := SFdiv prec emax.

Definition sqrt : float64 -> float64 := SFsqrt prec emax.

(** A Python integer taken to float64. *)
Definition of_Z (z : Z) : float64 := binary_normalize prec emax z 0%Z false.

Definition zero : float64 := S754_zero false.

Definition one : float64 := of_Z 1%Z.

(** [x != y], [x <= y] and [x < y]: a comparison with [nan] is false, so
    [nan != nan] is true. *)
Definition ne (x y : float64) : bool := negb (SFeqb x y).

Definition leb (x y : float64) : bool := SFleb x y.


(** Neither an infinity nor [nan]. *)
Definition finite (x : float64) : Prop :=
  match x with
  | S754_zero _ | S754_finite _ _ _ => True
  | S754_infinity _ | S754_nan => False
  end.

(** A zero, a finite number or an infinity of sign [s]. *)
Definition signed (s : bool) (x : float64) : Prop :=
  match x with
  | S754_zero s' | S754_infinity s' | S754_finite s' _ _ => s' = s
  | S754_nan => False
  end.

Record ndarray : Type := mk_ndarray {
  shape : nat * nat;
  flat : list float64
}.

Definition size (a : ndarray) : nat := (fst (shape a) * snd (shape a))%nat.

Definition wf (a : ndarray) : Prop := List.length (flat a) = size a.

Definition flatten (a : ndarray) : list float64 := flat a.

Fixpoint zip_with (f : float64 -> float64 -> float64) (xs ys : list float64)
    : list float64 :=
  match xs, ys with
  | x :: xs', y :: ys' => f x y :: zip_with f xs' ys'
  | _, _ => []
  end.

(** [a - b], called on arrays of one shape only. *)
Definition nd_sub (a b : ndarray) : ndarray :=
  {| shape := shape a; flat := zip_with sub (flat a) (flat b) |}.

(** [a ** 2]: numpy squares with one multiplication. *)
Definition nd_square (a : ndarray) : ndarray :=
  {| shape := shape a; flat := map (fun x => mul x x) (flat a) |}.


(** A sum, the additions taken from left to right.  numpy and BLAS may
    group the additions of a long array otherwise; what is proved below for
    all arrays does not depend on the grouping, and the arrays of the
    examples are too short for it to matter. *)
Definition sum (xs : list float64) : float64 := fold_left add xs zero.

(** [np.mean(a)]: the sum over the number of elements, [0 / 0] on an empty
    array. *)
Definition np_mean (a : ndarray) : float64 :=
  div (sum (flat a)) (of_Z (Z.of_nat (size a))).

Definition np_sqrt (v : float64) : float64 := sqrt v.

Definition dot (xs ys : list float64) : float64 := sum (zip_with mul xs ys).

Definition correlate_valid (a v : list float64) : list float64 :=
  map (fun k => dot (skipn k a) v) (seq 0 (List.length a - List.length v + 1)).

Definition np_correlate (a v : list float64) : result (list float64) :=
  match a, v with
  | [], _ => Raise Numpy.correlate_empty_first
  | _, [] => Raise Numpy.correlate_empty_second
  | _, _ =>
      Return (if (List.length a <? List.length v)%nat
              then rev (correlate_valid v a)
              else correlate_valid a v)
  end.

(** [scipy.linalg.norm(a)]: the root of the sum of the squares.  (The BLAS
    routine behind it may rescale the data so that the squares do not
    overflow; on data whose squares stay in range the value is this one.) *)
Definition norm (a : ndarray) : float64 :=
  sqrt (sum (map (fun x => mul x x) (flat a))).

Fixpoint ne_elementwise (t1 t2 : list float64) : list bool :=
  match t1, t2 with
  | x :: t1', y :: t2' => ne x y :: ne_elementwise t1' t2'
  | _, _ => []
  end.

Definition not_equal (t1 t2 : list float64) : option (list bool) :=
  if Nat.eqb (List.length t1) (List.length t2) then Some (ne_elementwise t1 t2)
  else match t1, t2 with
       | [x], _ => Some (map (ne x) t2)
       | _, [y] => Some (map (fun x => ne x y) t1)
       | _, _ => None
       end.

End Numpy64.

(** ** mne/simulation/metrics.py *)

Module Metrics.
Import Py Numpy.

(** What the functions read of a source estimate. *)
Record SourceEstimate : Type := mk_stc {
  data : ndarray;
  times : list R
}.

(** What the functions return: [float | array]. *)
Inductive score : Type :=
| Scalar (v : float64)
| Array (vs : list float64).

(** The four [ValueError]s of the file, under the names of the
    specification. *)
Definition ShapeMismatch : exn :=
  ValueError "Data in stcs must have the same size".

Definition TimeMismatch : exn :=
  ValueError "Times of two stcs must match.".

Definition UnknownMetric_msg : string :=
  ("metric must be a str from the known metrics: "
     ++ quoted "rms" ++ ", " ++ quoted "cosine" ++ ", "
     ++ quoted "distance_err" ++ ", "
     ++ quoted "weighted_distance_err" ++ " or " ++ quoted "...")%string.

Definition UnknownMetric : exn := ValueError UnknownMetric_msg.

Definition MissingSourceSpace : exn :=
  ValueError ("The source space src is needed when using "
                ++ quoted "distance_err" ++ " or "
                ++ quoted "weighted_distance_err")%string.

Definition _check_stc (stc1 stc2 : SourceEstimate) : result unit :=
  if negb (shape_eqb (shape (data stc1)) (shape (data stc2))) then
    Raise ShapeMismatch
  else if np_all (not_equal (times stc1) (times stc2)) then
    Raise TimeMismatch
  else Return tt.

Definition known_metrics : list string :=
  ["rms"; "cosine"; "distance_err"; "weighted_distance_err"]%string.

(** [x in l] on a list of strings. *)
Definition str_in (x : string) (l : list string) : bool :=
  existsb (String.eqb x) l.

Definition is_None {A : Type} (o : option A) : bool :=
  match o with
  | None => true
  | Some _ => false
  end.

(** The function returns [None] when it reaches its end without a
    [return]: the result is an [option score]. *)
Definition source_estimate_quantification {Src : Type}
    (stc1 stc2 : SourceEstimate) (metric : string) (src : option Src)
    : result (option score) :=
  if negb (str_in metric known_metrics) then Raise UnknownMetric
  else if str_in metric ["distance_err"; "weighted_distance_err"]%string
          && is_None src then
    Raise MissingSourceSpace
  else
    _ <- _check_stc stc1 stc2 ;;
    let data1 := data stc1 in
    let data2 := data stc2 in
    if String.eqb metric "rms" then
      Return (Some (Scalar (np_sqrt (np_mean (nd_square (nd_sub data1 data2))))))
    else if String.eqb metric "cosine" then
      corr <- np_correlate (flatten data1) (flatten data2) ;;
      let score :=
        map (fun c => true_divide c (norm data1 * norm data2)) corr in
      Return (Some (Array (map one_minus score)))
    else Return None.

(** ** Vocabulary of the properties *)

(** Two source estimates are compatible when the check lets them through. *)
Definition compatible (stc1 stc2 : SourceEstimate) : Prop :=
  _check_stc stc1 stc2 = Return tt.

(** The two metrics that need the source space. *)
Definition geometry_metric (metric : string) : Prop :=
  metric = "distance_err"%string \/ metric = "weighted_distance_err"%string.


(** The formulas of the specification, written with indexed sums over the
    elements [A_0 .. A_(n-1)] of a matrix; they are compared below with what
    the numpy expressions of the source compute. *)
Fixpoint big_sum (n : nat) (f : nat -> R) : R :=
  match n with
  | O => 0
  | S n' => big_sum n' f + f n'
  end.

Definition elem (a : ndarray) (i : nat) : R := nth i (flat a) 0.

Definition mean_sq_diff_spec (A B : ndarray) : R :=
  big_sum (size A) (fun i => (elem A i - elem B i) ^ 2) / INR (size A).

Definition rms_spec (A B : ndarray) : R := sqrt (mean_sq_diff_spec A B).

(** The same root as a float64, the mean of no element included. *)
Definition rms_value (A B : ndarray) : float64 :=
  np_sqrt (true_divide (big_sum (size A) (fun i => (elem A i - elem B i) ^ 2))
                       (INR (size A))).

Definition dot_spec (A B : ndarray) : R :=
  big_sum (size A) (fun i => elem A i * elem B i).



(** ** Inputs used in the examples *)

Definition row12 : ndarray := {| shape := (1, 2)%nat; flat := [1; 2] |}.

Definition ones23 : ndarray := {| shape := (2, 3)%nat; flat := [1; 1; 1; 1; 1; 1] |}.

Definition ones32 : ndarray := {| shape := (3, 2)%nat; flat := [1; 1; 1; 1; 1; 1] |}.

Definition zeros12 : ndarray := {| shape := (1, 2)%nat; flat := [0; 0] |}.

(** No row and two columns: an array without any element. *)
Definition empty02 : ndarray := {| shape := (0, 2)%nat; flat := [] |}.

Definition stc_row12 : SourceEstimate := {| data := row12; times := [0; 1] |}.

(** As [stc_row12], with the second time stamp changed. *)
Definition stc_row12_late : SourceEstimate := {| data := row12; times := [0; 2] |}.

Definition stc_zeros12 : SourceEstimate := {| data := zeros12; times := [0; 1] |}.

Definition stc_ones23 : SourceEstimate := {| data := ones23; times := [0; 1; 2] |}.

Definition stc_ones32 : SourceEstimate := {| data := ones32; times := [0; 1] |}.

Definition stc_empty02 : SourceEstimate := {| data := empty02; times := [0; 1] |}.

(** One row and no column, hence no time stamp. *)
Definition stc_no_time : SourceEstimate :=
  {| data := {| shape := (1, 0)%nat; flat := [] |}; times := [] |}.

(** ** The two functions on binary64 *)

Module F64.
Import Numpy64.

Record SourceEstimate : Type := mk_stc {
  data : ndarray;
  times : list float64
}.

Inductive score : Type :=
| Scalar (v : float64)
| Array (vs : list float64).

Definition _check_stc (stc1 stc2 : SourceEstimate) : result unit :=
  if negb (Numpy.shape_eqb (shape (data stc1)) (shape (data stc2))) then
    Raise ShapeMismatch
  else if Numpy.np_all (not_equal (times stc1) (times stc2)) then
    Raise TimeMismatch
  else Return tt.

Definition source_estimate_quantification {Src : Type}
    (stc1 stc2 : SourceEstimate) (metric : string) (src : option Src)
    : result (option score) :=
  if negb (str_in metric known_metrics) then Raise UnknownMetric
  else if str_in metric ["distance_err"; "weighted_distance_err"]%string
          && is_None src then
    Raise MissingSourceSpace
  else
    _ <- _check_stc stc1 stc2 ;;
    let data1 := data stc1 in
    let data2 := data stc2 in
    if String.eqb metric "rms" then
      Return (Some (Scalar (np_sqrt (np_mean (nd_square (nd_sub data1 data2))))))
    else if String.eqb metric "cosine" then
      corr <- np_correlate (flatten data1) (flatten data2) ;;
      let score := map (fun c => div c (mul (norm data1) (norm data2))) corr in
      Return (Some (Array (map (sub one) score)))
    else Return None.

Definition compatible (stc1 stc2 : SourceEstimate) : Prop :=
  _check_stc stc1 stc2 = Return tt.

Definition all_finite (a : ndarray) : Prop := Forall finite (flat a).


(** The formulas of the specification, for comparison: the root of the mean
    of the squared differences, and 1 minus the dot product over the product
    of the norms. *)
Definition rms_formula (A B : ndarray) : float64 :=
  sqrt (div (sum (map (fun p => mul (sub (fst p) (snd p)) (sub (fst p) (snd p)))
                      (combine (flat A) (flat B))))
            (of_Z (Z.of_nat (size A)))).


(** Inputs of the examples: matrices of small integers. *)
Definition matrix (r c : nat) (xs : list Z) : ndarray :=
  {| shape := (r, c); flat := map of_Z xs |}.

Definition estimate (r c : nat) (xs : list Z) : SourceEstimate :=
  {| data := matrix r c xs; times := map of_Z (map Z.of_nat (seq 0 c)) |}.

End F64.

(** ** Python and numpy helpers *)

Lemma ne_refl (x : R) : ne x x = false.
Proof. unfold ne. destruct (Req_dec_T x x); [reflexivity | contradiction]. Qed.

Lemma ne_true (x y : R) : x <> y -> ne x y = true.
Proof. intros H. unfold ne. destruct (Req_dec_T x y); [contradiction | reflexivity]. Qed.

Lemma ne_true_iff (x y : R) : ne x y = true <-> x <> y.
Proof.
  split; [| apply ne_true].
  unfold ne. destruct (Req_dec_T x y); [discriminate | auto].
Qed.

Lemma true_divide_fin (x y : R) : y <> 0 -> true_divide x y = Fin (x / y).
Proof.
  intros H. unfold true_divide. destruct (Req_dec_T y 0); [contradiction | reflexivity].
Qed.

Lemma true_divide_0_0 : true_divide 0 0 = NaN.
Proof.
  unfold true_divide.
  destruct (Req_dec_T 0 0) as [_ | H]; [reflexivity | now elim H].
Qed.

Lemma np_sqrt_fin (x : R) : 0 <= x -> np_sqrt (Fin x) = Fin (sqrt x).
Proof.
  intros H. simpl. destruct (Rlt_dec x 0); [lra | reflexivity].
Qed.

Lemma shape_eqb_eq (s1 s2 : nat * nat) : shape_eqb s1 s2 = true <-> s1 = s2.
Proof.
  destruct s1 as [r1 c1], s2 as [r2 c2]. unfold shape_eqb. simpl.
  rewrite andb_true_iff, !Nat.eqb_eq. split.
  - intros [-> ->]. reflexivity.
  - intros H. inversion H. auto.
Qed.

Lemma str_in_In (x : string) (l : list string) : str_in x l = true <-> In x l.
Proof.
  unfold str_in. rewrite existsb_exists. split.
  - intros [y [Hy Heq]]. apply String.eqb_eq in Heq. now subst.
  - intros H. exists x. split; [assumption | apply String.eqb_refl].
Qed.

Lemma str_in_not_In (x : string) (l : list string) : str_in x l = false <-> ~ In x l.
Proof.
  rewrite <- str_in_In. destruct (str_in x l); split; intros; congruence.
Qed.

(** ** The compatibility check *)

Lemma check_stc_shape (stc1 stc2 : SourceEstimate) :
  shape (data stc1) <> shape (data stc2) ->
  _check_stc stc1 stc2 = Raise ShapeMismatch.
Proof.
  intros H. unfold _check_stc.
  destruct (shape_eqb _ _) eqn:E; [| reflexivity].
  apply shape_eqb_eq in E. contradiction.
Qed.

Lemma compatible_shape (stc1 stc2 : SourceEstimate) :
  compatible stc1 stc2 -> shape (data stc1) = shape (data stc2).
Proof.
  unfold compatible, _check_stc.
  destruct (shape_eqb _ _) eqn:E; [| discriminate].
  intros _. now apply shape_eqb_eq.
Qed.

Lemma forallb_ne_elementwise (t1 t2 : list R) :
  List.length t1 = List.length t2 ->
  forallb (fun b => b) (ne_elementwise t1 t2) = true <->
  Forall2 (fun x y => x <> y) t1 t2.
Proof.
  revert t2. induction t1 as [| x t1 IH]; intros [| y t2] Hlen; try discriminate.
  - simpl. split; [constructor | reflexivity].
  - simpl in *. injection Hlen as Hlen.
    rewrite andb_true_iff, ne_true_iff, (IH t2 Hlen). split.
    + intros [Hxy Hrest]. now constructor.
    + intros H. inversion H; subst. auto.
Qed.

(** With data of one shape and time arrays of one length, the check raises
    exactly when every pair of time stamps differs. *)
Lemma check_stc_times_iff (stc1 stc2 : SourceEstimate) :
  shape (data stc1) = shape (data stc2) ->
  List.length (times stc1) = List.length (times stc2) ->
  _check_stc stc1 stc2 = Raise TimeMismatch <->
  Forall2 (fun x y => x <> y) (times stc1) (times stc2).
Proof.
  intros Hs Hl. unfold _check_stc, not_equal.
  apply shape_eqb_eq in Hs. rewrite Hs.
  apply Nat.eqb_eq in Hl as Hl'. rewrite Hl'. simpl.
  rewrite <- (forallb_ne_elementwise _ _ Hl).
  destruct (forallb _ _); split; intros; congruence.
Qed.

(** ** The dispatch of [source_estimate_quantification] *)

Section Dispatch.
Context {Src : Type}.
Variables stc1 stc2 : SourceEstimate.

Lemma quantification_rms (src : option Src) :
  source_estimate_quantification stc1 stc2 "rms" src =
  (_ <- _check_stc stc1 stc2 ;;
   Return (Some (Scalar (np_sqrt (np_mean (nd_square (nd_sub (data stc1) (data stc2)))))))).
Proof. reflexivity. Qed.

Lemma quantification_cosine (src : option Src) :
  source_estimate_quantification stc1 stc2 "cosine" src =
  (_ <- _check_stc stc1 stc2 ;;
   corr <- np_correlate (flatten (data stc1)) (flatten (data stc2)) ;;
   Return (Some (Array (map one_minus
     (map (fun c => true_divide c (norm (data stc1) * norm (data stc2)))
          corr))))).
Proof. reflexivity. Qed.

Lemma quantification_geometry (metric : string) (s : Src) :
  geometry_metric metric ->
  source_estimate_quantification stc1 stc2 metric (Some s) =
  (_ <- _check_stc stc1 stc2 ;; Return None).
Proof. intros [-> | ->]; reflexivity. Qed.

Lemma quantification_never_NotImplemented (metric : string) (src : option Src) :
  ~ raises_NotImplemented (source_estimate_quantification stc1 stc2 metric src).
Proof.
  intros [msg H]. unfold source_estimate_quantification in H.
  destruct (negb (str_in metric known_metrics)); [discriminate |].
  destruct (str_in metric _ && is_None src); [discriminate |].
  unfold _check_stc in H.
  destruct (negb (shape_eqb _ _)); [discriminate |].
  destruct (np_all _); [discriminate |]. simpl in H.
  destruct (String.eqb metric "rms"); [discriminate |].
  destruct (String.eqb metric "cosine"); [| discriminate].
  unfold np_correlate in H.
  destruct (flatten (data stc1)), (flatten (data stc2)); discriminate.
Qed.

End Dispatch.

(** ** Error handling *)

(** C7.  A metric outside the four known names makes the call raise the
    unknown-metric [ValueError], whatever the two estimates and the source
    space are (no check of them, no computation on them, has a say), and the
    message of that error contains each of the four accepted names, quoted. *)
Theorem unknown_metric_rejected {Src : Type}
    (stc1 stc2 : SourceEstimate) (metric : string) (src : option Src) :
  ~ In metric known_metrics ->
  source_estimate_quantification stc1 stc2 metric src = Raise UnknownMetric /\
  UnknownMetric = ValueError UnknownMetric_msg /\
  Forall (fun m => contains (quoted m) UnknownMetric_msg = true) known_metrics.
Proof.
  intros H. apply str_in_not_In in H. split; [| split].
  - unfold source_estimate_quantification. now rewrite H.
  - reflexivity.
  - repeat constructor.
Qed.

Lemma unknown_metric_rejected_witness :
  ~ In "bogus"%string known_metrics /\
  source_estimate_quantification stc_ones23 stc_ones32 "bogus" (@None unit)
  = Raise UnknownMetric.
Proof.
  assert (H : ~ In "bogus"%string known_metrics).
  { apply str_in_not_In. reflexivity. }
  split; [exact H |].
  exact (proj1 (unknown_metric_rejected stc_ones23 stc_ones32 "bogus" None H)).
Defined.

(** C8.  A geometry metric asked for without a source space makes the call
    raise the missing-source-space [ValueError], whatever the shapes and the
    times of the two estimates are. *)
Theorem geometry_metric_needs_src {Src : Type}
    (stc1 stc2 : SourceEstimate) (metric : string) :
  geometry_metric metric ->
  source_estimate_quantification stc1 stc2 metric (@None Src)
  = Raise MissingSourceSpace.
Proof. intros [-> | ->]; reflexivity. Qed.

Lemma geometry_metric_needs_src_witness :
  geometry_metric "distance_err" /\
  source_estimate_quantification stc_ones23 stc_ones32 "distance_err" (@None unit)
  = Raise MissingSourceSpace.
Proof.
  assert (H : geometry_metric "distance_err") by (left; reflexivity).
  split; [exact H |].
  exact (geometry_metric_needs_src stc_ones23 stc_ones32 "distance_err" H).
Defined.

(** C9, as the specification states it, fails: with shapes (2, 3) and (3, 2),
    the known metric 'distance_err' and no source space, the call raises the
    missing-source-space error and not the shape error. *)
Lemma shape_mismatch_not_first :
  In "distance_err"%string known_metrics /\
  shape (data stc_ones23) <> shape (data stc_ones32) /\
  source_estimate_quantification stc_ones23 stc_ones32 "distance_err" (@None unit)
  = Raise MissingSourceSpace /\
  source_estimate_quantification stc_ones23 stc_ones32 "distance_err" (@None unit)
  <> Raise ShapeMismatch.
Proof.
  split; [| split; [| split]].
  - apply str_in_In. reflexivity.
  - discriminate.
  - reflexivity.
  - change (@Raise (option score) MissingSourceSpace <> Raise ShapeMismatch).
    unfold MissingSourceSpace, ShapeMismatch. intros H. injection H as H.
    discriminate H.
Qed.

(** C9, amended.  For data of different shapes and a known metric that is
    not a geometry metric left without its source space, the call raises the
    shape [ValueError]; the contents of the data and the times play no part,
    the check comes before any metric is computed. *)
Theorem shape_mismatch_rejected {Src : Type}
    (stc1 stc2 : SourceEstimate) (metric : string) (src : option Src) :
  In metric known_metrics ->
  (geometry_metric metric -> src <> None) ->
  shape (data stc1) <> shape (data stc2) ->
  source_estimate_quantification stc1 stc2 metric src = Raise ShapeMismatch.
Proof.
  intros Hin Hsrc Hshape.
  assert (Hgeo : str_in metric ["distance_err"; "weighted_distance_err"]%string
                 && is_None src = false).
  { destruct src as [s |]; [apply andb_false_r |].
    destruct (str_in metric _) eqn:E; [| reflexivity].
    apply str_in_In in E. exfalso. apply Hsrc; [| reflexivity].
    destruct E as [<- | [<- | []]]; [left | right]; reflexivity. }
  apply str_in_In in Hin.
  unfold source_estimate_quantification.
  rewrite Hin, Hgeo. simpl.
  now rewrite (check_stc_shape _ _ Hshape).
Qed.

Lemma shape_mismatch_rejected_witness :
  source_estimate_quantification stc_ones23 stc_ones32 "rms" (@None unit)
  = Raise ShapeMismatch.
Proof.
  apply (shape_mismatch_rejected stc_ones23 stc_ones32 "rms" None).
  - apply str_in_In. reflexivity.
  - intros [H | H]; discriminate H.
  - discriminate.
Defined.

(** C2, on the code.  For a compatible pair, the metric 'distance_err' and a
    source space, the call raises nothing at all: after the checks the
    function has a branch for 'rms' and one for 'cosine' only, reaches its
    end and returns [None], neither the distance its docstring announces nor
    an error. *)
Lemma geometry_metric_not_NotImplemented :
  compatible stc_row12 stc_row12 /\
  source_estimate_quantification stc_row12 stc_row12 "distance_err" (Some tt)
  = Return None /\
  ~ raises_NotImplemented
      (source_estimate_quantification stc_row12 stc_row12 "distance_err" (Some tt)).
Proof.
  assert (Hc : compatible stc_row12 stc_row12).
  { unfold compatible, _check_stc. simpl.
    unfold not_equal. simpl. now rewrite !ne_refl. }
  split; [exact Hc | split].
  - rewrite quantification_geometry by (left; reflexivity).
    now rewrite Hc.
  - apply quantification_never_NotImplemented.
Qed.

(** The same on every compatible pair and for both geometry metrics. *)
Lemma geometry_metric_falls_through {Src : Type}
    (stc1 stc2 : SourceEstimate) (metric : string) (s : Src) :
  compatible stc1 stc2 ->
  geometry_metric metric ->
  source_estimate_quantification stc1 stc2 metric (Some s) = Return None.
Proof.
  intros Hc Hg. rewrite (quantification_geometry _ _ _ _ Hg).
  unfold compatible in Hc. now rewrite Hc.
Qed.

(** ** Sums over lists and indexed sums *)

Lemma big_sum_front (n : nat) (f : nat -> R) :
  big_sum (S n) f = f O + big_sum n (fun i => f (S i)).
Proof.
  induction n as [| n IH].
  - simpl. lra.
  - change (big_sum (S (S n)) f) with (big_sum (S n) f + f (S n)).
    rewrite IH. simpl. lra.
Qed.

Lemma big_sum_nonneg (n : nat) (f : nat -> R) :
  (forall i, 0 <= f i) -> 0 <= big_sum n f.
Proof.
  intros H. induction n as [| n IH]; simpl.
  - lra.
  - specialize (H n). lra.
Qed.


Lemma sum_sq_diff_big_sum (xs ys : list R) :
  List.length xs = List.length ys ->
  sum (map (fun x => x ^ 2) (zip_with Rminus xs ys)) =
  big_sum (List.length xs) (fun i => (nth i xs 0 - nth i ys 0) ^ 2).
Proof.
  revert ys. induction xs as [| x xs IH]; intros [| y ys] Hlen; try discriminate.
  - reflexivity.
  - injection Hlen as Hlen.
    cbn [List.length map sum zip_with]. rewrite big_sum_front, (IH ys Hlen).
    reflexivity.
Qed.

Lemma dot_big_sum (xs ys : list R) :
  List.length xs = List.length ys ->
  dot xs ys = big_sum (List.length xs) (fun i => nth i xs 0 * nth i ys 0).
Proof.
  revert ys. induction xs as [| x xs IH]; intros [| y ys] Hlen; try discriminate.
  - reflexivity.
  - injection Hlen as Hlen.
    cbn [List.length dot]. rewrite big_sum_front, (IH ys Hlen). reflexivity.
Qed.




(** [np.correlate] on two non-empty arrays of one length has the dot product
    as its only element; it refuses an empty first argument. *)
Lemma np_correlate_same_length (xs ys : list R) :
  xs <> [] -> List.length xs = List.length ys ->
  np_correlate xs ys = Return [dot xs ys].
Proof.
  intros Hne Hlen.
  destruct xs as [| x xs]; [contradiction |].
  destruct ys as [| y ys]; [discriminate |].
  unfold np_correlate, correlate_valid.
  rewrite Hlen, Nat.ltb_irrefl, Nat.sub_diag. reflexivity.
Qed.

(** ** The numpy expressions against the formulas *)

Section SameShape.
Variables A B : ndarray.
Hypothesis wfA : wf A.
Hypothesis wfB : wf B.
Hypothesis same_shape : shape A = shape B.

Lemma same_size : size A = size B.
Proof. unfold size. now rewrite same_shape. Qed.

Lemma same_length : List.length (flat A) = List.length (flat B).
Proof. unfold wf in *. rewrite wfA, wfB. apply same_size. Qed.

Lemma np_mean_sq_diff :
  np_mean (nd_square (nd_sub A B)) =
  true_divide (big_sum (size A) (fun i => (elem A i - elem B i) ^ 2))
              (INR (size A)).
Proof.
  unfold np_mean. cbn [nd_square nd_sub flat].
  rewrite (sum_sq_diff_big_sum _ _ same_length), wfA. reflexivity.
Qed.

Lemma mean_sq_diff_nonneg : 0 <= mean_sq_diff_spec A B.
Proof.
  unfold mean_sq_diff_spec.
  assert (0 <= big_sum (size A) (fun i => (elem A i - elem B i) ^ 2)).
  { apply big_sum_nonneg. intros i. apply pow2_ge_0. }
  destruct (size A) as [| n].
  - simpl. unfold Rdiv. rewrite Rmult_0_l. lra.
  - apply Rmult_le_pos; [assumption |].
    apply Rlt_le, Rinv_0_lt_compat, lt_0_INR. lia.
Qed.

Lemma rms_expression :
  np_sqrt (np_mean (nd_square (nd_sub A B))) = rms_value A B.
Proof. unfold rms_value. now rewrite np_mean_sq_diff. Qed.

(** On matrices with at least one element the root is the finite number
    [rms_spec]. *)
Lemma rms_value_nonempty :
  (0 < size A)%nat -> rms_value A B = Fin (rms_spec A B).
Proof.
  intros Hpos. unfold rms_value.
  rewrite true_divide_fin by (apply not_0_INR; lia).
  apply np_sqrt_fin, mean_sq_diff_nonneg.
Qed.

(** On matrices without any element it is [NaN]. *)
Lemma rms_value_empty : size A = O -> rms_value A B = NaN.
Proof.
  intros H0. unfold rms_value. rewrite H0. simpl.
  now rewrite true_divide_0_0.
Qed.


Lemma dot_dot_spec : dot (flat A) (flat B) = dot_spec A B.
Proof.
  unfold dot_spec. now rewrite (dot_big_sum _ _ same_length), wfA.
Qed.

End SameShape.

Lemma flat_empty_iff (A : ndarray) : wf A -> (flat A = [] <-> size A = O).
Proof.
  unfold wf. intros <-. destruct (flat A); simpl; split; congruence.
Qed.

Lemma cosine_expression (A B : ndarray) :
  wf A -> wf B -> shape A = shape B -> (0 < size A)%nat ->
  np_correlate (flatten A) (flatten B) = Return [dot_spec A B].
Proof.
  intros wfA wfB Hs Hpos. unfold flatten.
  rewrite np_correlate_same_length.
  - now rewrite (dot_dot_spec A B wfA wfB Hs).
  - intros H. apply (flat_empty_iff A wfA) in H. lia.
  - apply (same_length A B wfA wfB Hs).
Qed.

Lemma cosine_expression_empty (A B : ndarray) :
  wf A -> size A = O ->
  np_correlate (flatten A) (flatten B) = Raise correlate_empty_first.
Proof.
  intros wfA H0. apply (flat_empty_iff A wfA) in H0.
  unfold flatten. now rewrite H0.
Qed.

Lemma big_sum_ext (n : nat) (f g : nat -> R) :
  (forall i, f i = g i) -> big_sum n f = big_sum n g.
Proof.
  intros H. induction n as [| n IH]; simpl; [reflexivity |].
  now rewrite IH, H.
Qed.

Lemma big_sum_zero (n : nat) (f : nat -> R) :
  (forall i, f i = 0) -> big_sum n f = 0.
Proof.
  intros H. induction n as [| n IH]; simpl; [reflexivity |].
  rewrite IH, H. lra.
Qed.

(** ** The check on one estimate, the metrics on a compatible pair *)

Lemma compatible_self (stc : SourceEstimate) :
  times stc <> [] -> compatible stc stc.
Proof.
  intros Ht. unfold compatible, _check_stc, not_equal.
  assert (Hs : shape_eqb (shape (data stc)) (shape (data stc)) = true)
    by now apply shape_eqb_eq.
  rewrite Hs, Nat.eqb_refl. simpl.
  destruct (times stc) as [| t ts]; [contradiction |].
  simpl. now rewrite ne_refl.
Qed.

(** The two metrics on a compatible pair. *)
Lemma rms_compatible {Src : Type} (stc1 stc2 : SourceEstimate) (src : option Src) :
  wf (data stc1) -> wf (data stc2) -> compatible stc1 stc2 ->
  source_estimate_quantification stc1 stc2 "rms" src
  = Return (Some (Scalar (rms_value (data stc1) (data stc2)))).
Proof.
  intros Hw1 Hw2 Hc. rewrite quantification_rms.
  pose proof (compatible_shape _ _ Hc) as Hs.
  unfold compatible in Hc. rewrite Hc. cbn [bind].
  now rewrite (rms_expression _ _ Hw1 Hw2 Hs).
Qed.


(** X14.  On every compatible pair whose data has no element the 'cosine'
    metric returns nothing: [np.correlate] refuses its empty argument and
    the call raises that [ValueError], before any norm or division. *)
Theorem cosine_of_empty_data_raises {Src : Type}
    (stc1 stc2 : SourceEstimate) (src : option Src) :
  wf (data stc1) -> compatible stc1 stc2 -> size (data stc1) = O ->
  source_estimate_quantification stc1 stc2 "cosine" src
  = Raise correlate_empty_first.
Proof.
  intros Hw1 Hc H0. rewrite quantification_cosine.
  unfold compatible in Hc. rewrite Hc. cbn [bind].
  now rewrite (cosine_expression_empty _ _ Hw1 H0).
Qed.

Lemma cosine_of_empty_data_raises_witness :
  source_estimate_quantification stc_empty02 stc_empty02 "cosine" (@None unit)
  = Raise correlate_empty_first.
Proof.
  apply (cosine_of_empty_data_raises stc_empty02 stc_empty02 None).
  - reflexivity.
  - apply compatible_self. discriminate.
  - reflexivity.
Defined.

Lemma rms_spec_self (A : ndarray) : rms_spec A A = 0.
Proof.
  unfold rms_spec, mean_sq_diff_spec.
  rewrite big_sum_zero by (intros i; ring).
  unfold Rdiv. rewrite Rmult_0_l. apply sqrt_0.
Qed.

(** ** The metrics *)

(** C1, on the code.  Two estimates with the same data whose time arrays
    [0, 1] and [0, 2] differ in their second stamp pass the check: the test
    [np.all(times1 != times2)] asks that every pair of stamps differ.  The
    call then returns the 'rms' score 0 instead of raising the time error. *)
Theorem one_differing_time_accepted :
  shape (data stc_row12) = shape (data stc_row12_late) /\
  times stc_row12 <> times stc_row12_late /\
  _check_stc stc_row12 stc_row12_late = Return tt /\
  source_estimate_quantification stc_row12 stc_row12_late "rms" (@None unit)
  = Return (Some (Scalar (Fin 0))).
Proof.
  assert (Hc : compatible stc_row12 stc_row12_late).
  { unfold compatible, _check_stc, not_equal. simpl. now rewrite ne_refl. }
  split; [reflexivity | split; [| split]].
  - intros H. injection H as H. lra.
  - exact Hc.
  - rewrite (rms_compatible stc_row12 stc_row12_late None eq_refl eq_refl Hc).
    change (data stc_row12_late) with (data stc_row12).
    rewrite rms_value_nonempty by (unfold size; simpl; lia).
    now rewrite rms_spec_self.
Qed.

(** The same test raises on estimates without any time stamp, equal as their
    time arrays are. *)
Lemma no_time_stamp_rejected :
  _check_stc stc_no_time stc_no_time = Raise TimeMismatch.
Proof. reflexivity. Qed.



(** ** More on the compatibility check *)

Lemma ne_sym (x y : R) : ne x y = ne y x.
Proof.
  unfold ne. destruct (Req_dec_T x y), (Req_dec_T y x); congruence.
Qed.

Lemma ne_elementwise_sym (t1 t2 : list R) :
  ne_elementwise t1 t2 = ne_elementwise t2 t1.
Proof.
  revert t2. induction t1 as [| x t1 IH]; intros [| y t2]; simpl; try reflexivity.
  now rewrite ne_sym, IH.
Qed.

Lemma np_all_not_equal_sym (t1 t2 : list R) :
  np_all (not_equal t1 t2) = np_all (not_equal t2 t1).
Proof.
  unfold not_equal. rewrite (Nat.eqb_sym (List.length t2)).
  destruct (Nat.eqb (List.length t1) (List.length t2)) eqn:E.
  - now rewrite ne_elementwise_sym.
  - assert (Hm : forall x l, map (ne x) l = map (fun z => ne z x) l).
    { intros x l. apply map_ext. intros z. apply ne_sym. }
    destruct t1 as [| x [| x' t1]], t2 as [| y [| y' t2]];
      try discriminate E; try reflexivity; cbn [np_all]; now rewrite Hm.
Qed.

Lemma shape_eqb_sym (s1 s2 : nat * nat) : shape_eqb s1 s2 = shape_eqb s2 s1.
Proof.
  unfold shape_eqb. now rewrite (Nat.eqb_sym (fst s1)), (Nat.eqb_sym (snd s1)).
Qed.

Lemma forallb_ne_elementwise_false (t1 t2 : list R) :
  List.length t1 = List.length t2 ->
  forallb (fun b => b) (ne_elementwise t1 t2) = false <->
  exists i, (i < List.length t1)%nat /\ nth i t1 0 = nth i t2 0.
Proof.
  revert t2. induction t1 as [| x t1 IH]; intros [| y t2] Hlen; try discriminate.
  - simpl. split; [discriminate | intros [i [Hi _]]; lia].
  - injection Hlen as Hlen. cbn [ne_elementwise forallb List.length].
    rewrite andb_false_iff, (IH t2 Hlen). split.
    + intros [Hxy | [i [Hi Heq]]].
      * exists O. split; [lia |]. simpl.
        unfold ne in Hxy. destruct (Req_dec_T x y); [assumption | discriminate].
      * exists (S i). split; [lia | exact Heq].
    + intros [[| i] [Hi Heq]].
      * left. simpl in Heq. subst y. apply ne_refl.
      * right. exists i. split; [lia | exact Heq].
Qed.

(** X1.  On two estimates whose time arrays have one length, the check
    passes exactly when the data shapes are equal and the two time arrays
    agree at one index at least; it raises the time error exactly when the
    shapes are equal and the arrays differ at every index. *)
Theorem check_stc_passes_iff (stc1 stc2 : SourceEstimate) :
  List.length (times stc1) = List.length (times stc2) ->
  (compatible stc1 stc2 <->
   shape (data stc1) = shape (data stc2) /\
   exists i, (i < List.length (times stc1))%nat /\
             nth i (times stc1) 0 = nth i (times stc2) 0) /\
  (_check_stc stc1 stc2 = Raise TimeMismatch <->
   shape (data stc1) = shape (data stc2) /\
   Forall2 (fun x y => x <> y) (times stc1) (times stc2)).
Proof.
  intros Hlen. split.
  - rewrite <- (forallb_ne_elementwise_false _ _ Hlen).
    unfold compatible, _check_stc, not_equal.
    apply Nat.eqb_eq in Hlen as Hl. rewrite Hl. cbn [np_all].
    destruct (shape_eqb _ _) eqn:E; cbn [negb].
    + apply shape_eqb_eq in E.
      destruct (forallb _ _); split; try tauto; try discriminate.
      intros [_ H]. discriminate H.
    + split; [discriminate |]. intros [H _]. apply shape_eqb_eq in H. congruence.
  - split.
    + intros H. assert (Hs : shape (data stc1) = shape (data stc2)).
      { unfold _check_stc in H. destruct (shape_eqb _ _) eqn:E.
        - now apply shape_eqb_eq.
        - cbn [negb] in H. injection H as H. discriminate H. }
      split; [exact Hs |]. now apply (check_stc_times_iff _ _ Hs Hlen).
    + intros [Hs H]. now apply (check_stc_times_iff _ _ Hs Hlen).
Qed.

Lemma check_stc_passes_iff_witness :
  compatible stc_row12 stc_row12_late <->
  shape (data stc_row12) = shape (data stc_row12_late) /\
  exists i, (i < List.length (times stc_row12))%nat /\
            nth i (times stc_row12) 0 = nth i (times stc_row12_late) 0.
Proof.
  exact (proj1 (check_stc_passes_iff stc_row12 stc_row12_late eq_refl)).
Defined.

Lemma check_stc_swap (stc1 stc2 : SourceEstimate) :
  _check_stc stc1 stc2 = _check_stc stc2 stc1.
Proof.
  unfold _check_stc.
  now rewrite shape_eqb_sym, np_all_not_equal_sym.
Qed.

(** X2.  The check does not depend on the order of its two arguments: it
    returns, or raises the same error, for [(stc1, stc2)] and for
    [(stc2, stc1)], whatever the lengths of the time arrays. *)
Theorem check_stc_symmetric (stc1 stc2 : SourceEstimate) :
  _check_stc stc1 stc2 = _check_stc stc2 stc1.
Proof.
  unfold _check_stc.
  rewrite (shape_eqb_sym (shape (data stc1))).
  now rewrite (np_all_not_equal_sym (times stc1)).
Qed.

(** ** The outcomes of a call *)




Lemma geometry_test {Src : Type} (metric : string) (src : option Src) :
  str_in metric ["distance_err"; "weighted_distance_err"]%string && is_None src
  = true <-> geometry_metric metric /\ src = None.
Proof.
  rewrite andb_true_iff, str_in_In. unfold geometry_metric. simpl.
  destruct src; simpl; intuition (try discriminate; try congruence).
Qed.

Lemma quantification_known {Src : Type}
    (stc1 stc2 : SourceEstimate) (metric : string) (src : option Src) :
  In metric known_metrics -> ~ (geometry_metric metric /\ src = None) ->
  source_estimate_quantification stc1 stc2 metric src
  = (_ <- _check_stc stc1 stc2 ;;
     if String.eqb metric "rms" then
       Return (Some (Scalar (np_sqrt (np_mean
                 (nd_square (nd_sub (data stc1) (data stc2)))))))
     else if String.eqb metric "cosine" then
       corr <- np_correlate (flatten (data stc1)) (flatten (data stc2)) ;;
       Return (Some (Array (map one_minus
         (map (fun c => true_divide c (norm (data stc1) * norm (data stc2)))
              corr))))
     else Return None).
Proof.
  intros Hk Hg. unfold source_estimate_quantification.
  apply str_in_In in Hk. rewrite Hk. cbn [negb].
  destruct (str_in metric _ && is_None src) eqn:E; [| reflexivity].
  apply geometry_test in E. contradiction.
Qed.





(** X4.  Two estimates of one shape without any time stamp never pass:
    [np.all] is true on the empty comparison, so every call that gets as far
    as the check raises the time error, equal as the two time arrays are. *)
Theorem no_time_stamp_always_rejected {Src : Type}
    (stc1 stc2 : SourceEstimate) (metric : string) (src : option Src) :
  In metric known_metrics ->
  ~ (geometry_metric metric /\ src = None) ->
  shape (data stc1) = shape (data stc2) ->
  times stc1 = [] -> times stc2 = [] ->
  source_estimate_quantification stc1 stc2 metric src = Raise TimeMismatch.
Proof.
  intros Hk Hg Hs H1 H2.
  assert (Hc : _check_stc stc1 stc2 = Raise TimeMismatch).
  { unfold _check_stc. apply shape_eqb_eq in Hs. now rewrite Hs, H1, H2. }
  rewrite (quantification_known _ _ _ _ Hk Hg). now rewrite Hc.
Qed.

Lemma no_time_stamp_always_rejected_witness :
  source_estimate_quantification stc_no_time stc_no_time "cosine" (@None unit)
  = Raise TimeMismatch.
Proof.
  apply (no_time_stamp_always_rejected stc_no_time stc_no_time "cosine" None).
  - apply str_in_In. reflexivity.
  - intros [[H | H] _]; discriminate H.
  - reflexivity.
  - reflexivity.
  - reflexivity.
Defined.

(** ** The two arguments exchanged *)

Lemma rms_value_sym (A B : ndarray) :
  size A = size B -> rms_value A B = rms_value B A.
Proof.
  intros Hs. unfold rms_value. rewrite <- Hs. do 2 f_equal.
  apply big_sum_ext. intros i. ring.
Qed.

Lemma dot_spec_sym (A B : ndarray) :
  size A = size B -> dot_spec A B = dot_spec B A.
Proof.
  intros Hs. unfold dot_spec. rewrite <- Hs.
  apply big_sum_ext. intros i. ring.
Qed.

(** X5.  The evaluator is symmetric in its two estimates: for well-formed
    data, every metric name and every source space, the call on
    [(stc2, stc1)] returns the same score, or raises the same error, as the
    call on [(stc1, stc2)]. *)
Theorem quantification_symmetric {Src : Type}
    (stc1 stc2 : SourceEstimate) (metric : string) (src : option Src) :
  wf (data stc1) -> wf (data stc2) ->
  source_estimate_quantification stc1 stc2 metric src
  = source_estimate_quantification stc2 stc1 metric src.
Proof.
  intros Hw1 Hw2. unfold source_estimate_quantification.
  destruct (negb (str_in metric known_metrics)); [reflexivity |].
  destruct (str_in metric _ && is_None src); [reflexivity |].
  rewrite (check_stc_swap stc2 stc1).
  destruct (_check_stc stc1 stc2) as [[] | e] eqn:Hc; [| reflexivity].
  pose proof (compatible_shape _ _ Hc) as Hs. cbn [bind].
  pose proof (same_size _ _ Hs) as Hsz.
  destruct (String.eqb metric "rms").
  - rewrite (rms_expression _ _ Hw1 Hw2 Hs).
    rewrite (rms_expression _ _ Hw2 Hw1 (eq_sym Hs)).
    now rewrite (rms_value_sym _ _ Hsz).
  - destruct (String.eqb metric "cosine"); [| reflexivity].
    destruct (Nat.eq_dec (size (data stc1)) 0) as [H0 | H0].
    + rewrite (cosine_expression_empty _ _ Hw1 H0).
      rewrite Hsz in H0. now rewrite (cosine_expression_empty _ _ Hw2 H0).
    + rewrite (cosine_expression _ _ Hw1 Hw2 Hs) by lia.
      rewrite (cosine_expression _ _ Hw2 Hw1 (eq_sym Hs)) by lia.
      cbn [bind map].
      now rewrite (dot_spec_sym _ _ Hsz), (Rmult_comm (norm (data stc1))).
Qed.

Lemma quantification_symmetric_witness :
  source_estimate_quantification stc_row12 stc_zeros12 "cosine" (@None unit)
  = source_estimate_quantification stc_zeros12 stc_row12 "cosine" (@None unit).
Proof.
  apply (quantification_symmetric stc_row12 stc_zeros12 "cosine" None).
  - reflexivity.
  - reflexivity.
Defined.

(** X13.  On every compatible pair whose data has no element (a shape
    [(0, n)]), the 'rms' metric raises nothing and returns [NaN]: the mean of
    an empty array is [0 / 0]. *)
Theorem rms_of_empty_data_is_NaN {Src : Type}
    (stc1 stc2 : SourceEstimate) (src : option Src) :
  wf (data stc1) -> wf (data stc2) -> compatible stc1 stc2 ->
  size (data stc1) = O ->
  source_estimate_quantification stc1 stc2 "rms" src
  = Return (Some (Scalar NaN)).
Proof.
  intros Hw1 Hw2 Hc H0.
  now rewrite (rms_compatible _ _ src Hw1 Hw2 Hc), rms_value_empty.
Qed.

Lemma rms_of_empty_data_is_NaN_witness :
  source_estimate_quantification stc_empty02 stc_empty02 "rms" (@None unit)
  = Return (Some (Scalar NaN)).
Proof.
  apply (rms_of_empty_data_is_NaN stc_empty02 stc_empty02 None).
  - reflexivity.
  - reflexivity.
  - apply compatible_self. discriminate.
  - reflexivity.
Defined.

(** ** Binary64: signs and exact zeros *)

Section Binary64.
Import Numpy64 F64.
Local Open Scope Z_scope.

Lemma shr_1_nonneg (mrs : shr_record) :
  0 <= shr_m mrs -> 0 <= shr_m (shr_1 mrs).
Proof.
  destruct mrs as [m r s]. destruct m as [| p | p]; simpl; intros H.
  - lia.
  - destruct p; simpl; lia.
  - lia.
Qed.

Lemma iter_shr_1_nonneg (p : positive) : forall mrs,
  0 <= shr_m mrs -> 0 <= shr_m (iter_pos shr_1 p mrs).
Proof.
  induction p as [p IH | p IH |]; intros mrs H; simpl.
  - apply IH, IH, shr_1_nonneg, H.
  - apply IH, IH, H.
  - apply shr_1_nonneg, H.
Qed.

Lemma shr_fexp_nonneg (m e : Z) (l : location) :
  0 <= m -> 0 <= shr_m (fst (shr_fexp prec emax m e l)).
Proof.
  intros H. unfold shr_fexp, shr.
  assert (H0 : 0 <= shr_m (shr_record_of_loc m l)).
  { destruct l as [| []]; exact H. }
  destruct (fexp prec emax (Zdigits2 m + e) - e); simpl; try assumption.
  now apply iter_shr_1_nonneg.
Qed.

Lemma round_nearest_even_nonneg (m : Z) (l : location) :
  0 <= m -> 0 <= round_nearest_even m l.
Proof.
  intros H. destruct l as [| []]; simpl; try lia.
  destruct (Z.even m); lia.
Qed.

(** Rounding a mantissa that is not negative gives a zero, a finite number
    or an infinity of the sign asked for, never [nan]. *)
Lemma binary_round_aux_signed (s : bool) (m e : Z) (l : location) :
  0 <= m -> signed s (binary_round_aux prec emax s m e l).
Proof.
  intros H. unfold binary_round_aux.
  pose proof (shr_fexp_nonneg m e l H) as H1.
  destruct (shr_fexp prec emax m e l) as [mrs' e']. simpl in H1.
  pose proof (shr_fexp_nonneg _ e' loc_Exact
                (round_nearest_even_nonneg _ (loc_of_shr_record mrs') H1)) as H2.
  destruct (shr_fexp prec emax _ e' loc_Exact) as [mrs'' e'']. simpl in H2.
  destruct (shr_m mrs'') as [| p | p]; simpl.
  - reflexivity.
  - destruct (_ <=? _); exact eq_refl.
  - lia.
Qed.

Lemma binary_round_signed (s : bool) (m : positive) (e : Z) :
  signed s (binary_round prec emax s m e).
Proof.
  unfold binary_round. destruct (shl_align _ _ _) as [mz ez].
  apply binary_round_aux_signed. lia.
Qed.

Lemma mul_self_signed (x : float64) : x <> S754_nan -> signed false (mul x x).
Proof.
  intros H. destruct x as [s | s | | s m e]; simpl.
  - apply xorb_nilpotent.
  - apply xorb_nilpotent.
  - congruence.
  - rewrite xorb_nilpotent. apply binary_round_aux_signed. lia.
Qed.

Lemma sub_finite_not_nan (x y : float64) :
  finite x -> finite y -> sub x y <> S754_nan.
Proof.
  destruct x as [sx | sx | | sx mx ex], y as [sy | sy | | sy my ey];
    simpl; try tauto; intros _ _.
  - destruct sx, sy; discriminate.
  - discriminate.
  - discriminate.
  - match goal with
    | |- binary_normalize _ _ ?z _ _ <> _ => destruct z as [| p | p]
    end; simpl; try discriminate.
    + pose proof (binary_round_signed false p (Z.min ex ey)) as H.
      intros E. rewrite E in H. exact H.
    + pose proof (binary_round_signed true p (Z.min ex ey)) as H.
      intros E. rewrite E in H. exact H.
Qed.

Lemma add_signed_false (x y : float64) :
  signed false x -> signed false y -> signed false (add x y).
Proof.
  destruct x as [sx | sx | | sx mx ex], y as [sy | sy | | sy my ey];
    simpl; try tauto; intros -> ->; simpl; try reflexivity.
  destruct (shl_align mx ex (Z.min ex ey)) as [a ?].
  destruct (shl_align my ey (Z.min ex ey)) as [b ?]. simpl.
  apply binary_round_signed.
Qed.

Lemma div_signed_false (x : float64) (m : positive) (e : Z) :
  signed false x -> signed false (div x (S754_finite false m e)).
Proof.
  destruct x as [sx | sx | | sx mx ex]; simpl; try tauto; intros ->;
    simpl; try reflexivity.
  unfold SFdiv_core_binary.
  match goal with
  | |- context [Z.div_eucl ?a ?b] =>
      pose proof (Z.div_eucl_eq a b ltac:(discriminate));
      pose proof (Z.mod_pos_bound a b ltac:(reflexivity));
      assert (Ha : 0 <= a);
      [| unfold Z.modulo in *; destruct (Z.div_eucl a b) as [q r] ]
  end.
  - match goal with
    | |- 0 <= match ?s with _ => _ end => destruct s
    end; try lia. apply Z.shiftl_nonneg. lia.
  - apply binary_round_aux_signed. nia.
Qed.

Lemma sqrt_signed_false (x : float64) : signed false x -> signed false (sqrt x).
Proof.
  destruct x as [sx | sx | | sx mx ex]; simpl; try tauto; intros ->;
    simpl; try reflexivity.
  unfold SFsqrt_core_binary.
  match goal with
  | |- context [Z.sqrtrem ?a] =>
      pose proof (Z.sqrtrem_spec a) as H;
      assert (Ha : 0 <= a);
      [| destruct (Z.sqrtrem a) as [q r] ]
  end.
  - match goal with
    | |- 0 <= match ?s with _ => _ end => destruct s
    end; try lia. apply Z.shiftl_nonneg. lia.
  - apply binary_round_aux_signed. destruct (H Ha) as [_ [Hr1 Hr2]]. lia.
Qed.

Lemma signed_false_nonneg (v : float64) :
  signed false v -> v <> S754_nan /\ leb zero v = true.
Proof.
  destruct v as [s | s | | s m e]; simpl; try tauto; intros ->;
    split; try discriminate; reflexivity.
Qed.

Lemma sum_signed_false (xs : list float64) : forall acc,
  signed false acc -> Forall (signed false) xs ->
  signed false (fold_left add xs acc).
Proof.
  induction xs as [| x xs IH]; intros acc Hacc Hxs; simpl.
  - exact Hacc.
  - inversion Hxs; subst. apply IH; [| assumption].
    now apply add_signed_false.
Qed.

Lemma squared_differences_signed (xs : list float64) : forall ys,
  Forall finite xs -> Forall finite ys ->
  Forall (signed false)
    (map (fun p => mul (sub (fst p) (snd p)) (sub (fst p) (snd p)))
         (combine xs ys)).
Proof.
  induction xs as [| x xs IH]; intros [| y ys] Hx Hy; simpl; try constructor.
  - inversion Hx; inversion Hy; subst.
    now apply mul_self_signed, sub_finite_not_nan.
  - inversion Hx; inversion Hy; subst. now apply IH.
Qed.

(** The number of elements, below [2^53], is a positive float64. *)
Lemma digits2_pos_iter (p k : positive) :
  digits2_pos (Pos.iter xO p k) = (digits2_pos p + k)%positive.
Proof.
  induction k as [| k IH] using Pos.peano_ind.
  - simpl. lia.
  - rewrite Pos.iter_succ. simpl. rewrite IH. lia.
Qed.

Lemma digits2_pos_size (p : positive) : digits2_pos p = Pos.size p.
Proof. induction p; simpl; congruence. Qed.

Lemma digits2_pos_le (p : positive) :
  Z.pos p < 2 ^ 53 -> Z.pos (digits2_pos p) <= 53.
Proof.
  intros H. rewrite digits2_pos_size.
  pose proof (Pos.size_le p) as Hs.
  destruct (Z_le_gt_dec (Z.pos (Pos.size p)) 53) as [Hle | Hgt]; [exact Hle |].
  exfalso.
  assert (H54 : 2 ^ 54 <= 2 ^ Z.pos (Pos.size p)) by (apply Z.pow_le_mono_r; lia).
  assert (Hp : 2 ^ Z.pos (Pos.size p) <= Z.pos p~0).
  { rewrite <- Pos2Z.inj_pow. apply Pos2Z.pos_le_pos. exact Hs. }
  change (2 ^ 54) with (2 * 2 ^ 53) in H54. lia.
Qed.

Lemma of_Z_pos_finite (p : positive) :
  Z.pos p < 2 ^ 53 -> exists m e, of_Z (Z.pos p) = S754_finite false m e.
Proof.
  intros H. apply digits2_pos_le in H.
  unfold of_Z, binary_normalize, binary_round.
  set (d := digits2_pos p) in *.
  assert (Hf : fexp prec emax (Z.pos d + 0) = Z.pos d - 53).
  { unfold fexp, emin, prec, emax. lia. }
  rewrite Hf.
  assert (exists mz, shl_align p 0 (Z.pos d - 53) = (mz, Z.pos d - 53)
                     /\ digits2_pos mz = 53%positive) as [mz [Hsh Hd]].
  { unfold shl_align. destruct (Z.pos d - 53 - 0) as [| k | k] eqn:Ek.
    - exists p. split; [f_equal; lia |]. fold d. lia.
    - lia.
    - exists (Pos.iter xO p k). split; [reflexivity |].
      rewrite digits2_pos_iter. fold d. lia. }
  rewrite Hsh. exists mz, (Z.pos d - 53).
  unfold binary_round_aux, shr_fexp. cbn [Zdigits2]. rewrite Hd.
  match goal with
  | |- context [shr ?r ?e ?n] =>
      replace n with 0 by (unfold fexp, emin, prec, emax; lia)
  end.
  cbn [shr shr_record_of_loc loc_of_shr_record round_nearest_even shr_m
       shr_r shr_s Zdigits2].
  rewrite Hd.
  match goal with
  | |- context [shr ?r ?e ?n] =>
      replace n with 0 by (unfold fexp, emin, prec, emax; lia)
  end.
  cbn [shr shr_record_of_loc shr_m].
  assert (Hle : (Z.pos d - 53 <=? emax - prec) = true)
    by (apply Z.leb_le; unfold emax, prec; lia).
  now rewrite Hle.
Qed.

Lemma count_finite (n : nat) :
  (0 < n)%nat -> Z.of_nat n < 2 ^ 53 ->
  exists m e, of_Z (Z.of_nat n) = S754_finite false m e.
Proof.
  intros Hpos Hlt. destruct (Z.of_nat n) as [| p | p] eqn:E; try lia.
  now apply of_Z_pos_finite.
Qed.

(** [x - x] is [+0] on every finite [x]. *)
Lemma sub_self (x : float64) : finite x -> sub x x = zero.
Proof.
  destruct x as [s | s | | s m e]; try (simpl; tauto); intros _.
  - destruct s; reflexivity.
  - unfold sub, SFsub.
    set (a := cond_Zopp s _).
    replace (IntDef.Z.sub a a) with 0 by lia.
    reflexivity.
Qed.

Lemma squared_differences_self (xs : list float64) :
  Forall finite xs ->
  Forall (fun v => v = zero)
    (map (fun p => mul (sub (fst p) (snd p)) (sub (fst p) (snd p)))
         (combine xs xs)).
Proof.
  induction 1 as [| x xs Hx _ IH]; simpl; constructor; [| exact IH].
  now rewrite (sub_self x Hx).
Qed.

Lemma sum_zeros (xs : list float64) :
  Forall (fun v => v = zero) xs -> fold_left add xs zero = zero.
Proof.
  induction 1 as [| x xs Hx _ IH]; simpl; [reflexivity |].
  subst x. exact IH.
Qed.

(** ** Binary64: the two functions *)

Lemma map_zip_with (f : float64 -> float64) (g : float64 -> float64 -> float64)
    (xs : list float64) : forall ys,
  map f (zip_with g xs ys)
  = map (fun p => f (g (fst p) (snd p))) (combine xs ys).
Proof.
  induction xs as [| x xs IH]; intros [| y ys]; simpl; try reflexivity.
  now rewrite IH.
Qed.

Lemma rms_expression64 (A B : ndarray) :
  np_sqrt (np_mean (nd_square (nd_sub A B))) = rms_formula A B.
Proof.
  unfold np_sqrt, np_mean, rms_formula, size. cbn [nd_square nd_sub flat shape].
  now rewrite (map_zip_with (fun x => mul x x) sub).
Qed.


Lemma rms_compatible64 {Src : Type}
    (stc1 stc2 : SourceEstimate) (src : option Src) :
  compatible stc1 stc2 ->
  source_estimate_quantification stc1 stc2 "rms" src
  = Return (Some (Scalar (rms_formula (data stc1) (data stc2)))).
Proof.
  intros Hc. unfold compatible in Hc.
  change (source_estimate_quantification stc1 stc2 "rms" src)
    with (_ <- _check_stc stc1 stc2 ;;
          Return (Some (Scalar (np_sqrt (np_mean
                    (nd_square (nd_sub (data stc1) (data stc2)))))))).
  rewrite Hc. cbn [bind]. now rewrite rms_expression64.
Qed.



(** ** Binary64: the metrics *)

(** C3, as the specification states it, fails: on compatible estimates whose
    data has no element the 'rms' score is [nan], and [0 <= nan] is false. *)
Lemma rms_float64_of_no_element :
  compatible (estimate 0 2 []) (estimate 0 2 []) /\
  source_estimate_quantification (estimate 0 2 []) (estimate 0 2 []) "rms"
    (@None unit)
  = Return (Some (Scalar S754_nan)) /\
  leb zero S754_nan = false.
Proof. repeat split. Qed.

(** C3, amended.  On a compatible pair the 'rms' metric returns the scalar
    [sqrt(mean((A - B)^2))], every operation rounded to float64.  When the
    data is finite and has at least one element (and fewer than 2^53), this
    scalar is not [nan] and is [>= 0]; it may be [+inf], by overflow. *)
Theorem rms_float64_nonneg {Src : Type}
    (stc1 stc2 : SourceEstimate) (src : option Src) :
  compatible stc1 stc2 ->
  all_finite (data stc1) -> all_finite (data stc2) ->
  (0 < size (data stc1))%nat -> Z.of_nat (size (data stc1)) < 2 ^ 53 ->
  source_estimate_quantification stc1 stc2 "rms" src
  = Return (Some (Scalar (rms_formula (data stc1) (data stc2)))) /\
  rms_formula (data stc1) (data stc2) <> S754_nan /\
  leb zero (rms_formula (data stc1) (data stc2)) = true.
Proof.
  intros Hc Hf1 Hf2 Hpos Hlt. split; [now apply rms_compatible64 |].
  apply signed_false_nonneg. unfold rms_formula.
  destruct (count_finite _ Hpos Hlt) as [m [e ->]].
  apply sqrt_signed_false, div_signed_false, sum_signed_false.
  - reflexivity.
  - now apply squared_differences_signed.
Qed.

Lemma rms_float64_nonneg_witness :
  source_estimate_quantification (estimate 1 2 [1; 2]) (estimate 1 2 [0; 0])
    "rms" (@None unit)
  = Return (Some (Scalar (rms_formula (matrix 1 2 [1; 2]) (matrix 1 2 [0; 0]))))
  /\ rms_formula (matrix 1 2 [1; 2]) (matrix 1 2 [0; 0]) <> S754_nan
  /\ leb zero (rms_formula (matrix 1 2 [1; 2]) (matrix 1 2 [0; 0])) = true.
Proof.
  apply (rms_float64_nonneg (estimate 1 2 [1; 2]) (estimate 1 2 [0; 0]) None).
  - reflexivity.
  - repeat constructor.
  - repeat constructor.
  - unfold size. simpl. lia.
  - reflexivity.
Defined.




(** C5, as the specification states it, fails: an estimate whose data has no
    element is compatible with itself and its 'rms' score against itself is
    [nan]; the 'cosine' score of [[1, 2]] against itself is [2^-52], which
    is not 0. *)
Lemma identical_float64_not_zero :
  (compatible (estimate 0 2 []) (estimate 0 2 []) /\
   source_estimate_quantification (estimate 0 2 []) (estimate 0 2 []) "rms"
     (@None unit)
   = Return (Some (Scalar S754_nan))) /\
  (compatible (estimate 1 2 [1; 2]) (estimate 1 2 [1; 2]) /\
   source_estimate_quantification (estimate 1 2 [1; 2]) (estimate 1 2 [1; 2])
     "cosine" (@None unit)
   = Return (Some (Array [S754_finite false 4503599627370496 (-104)])) /\
   ne (S754_finite false 4503599627370496 (-104)) zero = true).
Proof. vm_compute. repeat split. Qed.

(** C5, amended.  For an estimate compatible with itself whose data is
    finite and has at least one element (and fewer than 2^53), the 'rms'
    score against itself is exactly [+0]. *)
Theorem rms_float64_identical {Src : Type}
    (stc : SourceEstimate) (src : option Src) :
  compatible stc stc -> all_finite (data stc) ->
  (0 < size (data stc))%nat -> Z.of_nat (size (data stc)) < 2 ^ 53 ->
  source_estimate_quantification stc stc "rms" src
  = Return (Some (Scalar zero)).
Proof.
  intros Hc Hf Hpos Hlt. rewrite (rms_compatible64 _ _ src Hc).
  unfold rms_formula, sum.
  rewrite (sum_zeros _ (squared_differences_self _ Hf)).
  destruct (count_finite _ Hpos Hlt) as [m [e ->]]. reflexivity.
Qed.

Lemma rms_float64_identical_witness :
  source_estimate_quantification (estimate 1 2 [1; 2]) (estimate 1 2 [1; 2])
    "rms" (@None unit)
  = Return (Some (Scalar zero)).
Proof.
  apply (rms_float64_identical (estimate 1 2 [1; 2]) None).
  - reflexivity.
  - repeat constructor.
  - unfold size. simpl. lia.
  - reflexivity.
Defined.





End Binary64.

End Metrics.
